(** * Yorkie cluster server: [DetachDocument]

    A shallow embedding of [server/rpc/cluster_server.go].  The handler is a
    straight line of calls into collaborators of other packages (coordinator,
    client and document directories, snapshot builder, Push-Pull engine,
    logger).  Those calls are kept as the nodes of a program tree, and a run
    of the tree against an arbitrary implementation of the collaborators
    yields the returned pair together with the log of the calls made and of
    what each one answered.  The theorems quantify over every such
    implementation. *)

From Stdlib Require Import List String Bool Arith Lia.
From ExtLib Require Import Structures.Monad.
Import ListNotations.
Import MonadNotation.
Local Open Scope monad_scope.

(** ** Go results *)

(** A Go [(T, error)] return of which the caller reads the value only when
    the error is nil. *)
Inductive result (E T : Type) : Type :=
| Ok (t : T)
| Err (err : E).

Arguments Ok {E T} t.
Arguments Err {E T} err.

(** ** Programs over collaborator calls *)

Section Programs.

Variable Call : Type.
Variable Resp : Call -> Type.

(** A program either returns, or performs one call and continues with the
    answer. *)
Inductive Prog (R : Type) : Type :=
| Ret (r : R)
| Vis (c : Call) (k : Resp c -> Prog R).

Arguments Ret {R} r.
Arguments Vis {R} c k.

Fixpoint pbind {A B : Type} (p : Prog A) (f : A -> Prog B) : Prog B :=
  match p with
  | Ret a => f a
  | Vis c k => Vis c (fun x => pbind (k x) f)
  end.

Definition call (c : Call) : Prog (Resp c) := Vis c (fun x => Ret x).

(** One entry of the log: a call and the answer it got. *)
Definition Event : Type := { c : Call & Resp c }.

Definition ev (c : Call) (x : Resp c) : Event := existT Resp c x.

Definition calls (t : list Event) : list Call := map (@projT1 Call Resp) t.

Section Run.

(** The state of everything outside the handler (stores, lock service,
    logger), and an implementation of the collaborators over it. *)
Variable World : Type.
Variable h : forall c : Call, World -> Resp c * World.

Fixpoint run {R : Type} (p : Prog R) (w : World) : R * World * list Event :=
  match p with
  | Ret r => (r, w, [])
  | Vis c k =>
      let (x, w1) := h c w in
      let '(r, w2, t) := run (k x) w1 in
      (r, w2, ev c x :: t)
  end.

Definition returned {R : Type} (p : Prog R) (w : World) : R :=
  fst (fst (run p w)).

Definition trace {R : Type} (p : Prog R) (w : World) : list Event :=
  snd (run p w).

End Run.

End Programs.

Arguments Prog {Call} Resp R.
Arguments Event {Call} Resp.
Arguments Ret {Call Resp R} r.
Arguments Vis {Call Resp R} c k.
Arguments pbind {Call Resp A B} p f.
Arguments call {Call Resp} c.
Arguments ev {Call Resp} c x.
Arguments calls {Call Resp} t.
Arguments run {Call Resp World} h {R} p w.
Arguments returned {Call Resp World} h {R} p w.
Arguments trace {Call Resp World} h {R} p w.

#[global] Instance Monad_Prog (Call : Type) (Resp : Call -> Type)
  : Monad (Prog Resp) :=
  {| ret := fun R r => Ret r;
     bind := fun A B p f => pbind p f |}.

(** ** Values and pure helpers of the other packages

    None of these declarations is in this file of the repository: the types
    are kept abstract and the pure helpers are parameters. *)

Class Packages : Type := {
  (** [context.Context] *)
  Ctx : Type;
  (** Go's [error] values *)
  error : Type;
  (** [time.ActorID] *)
  ActorID : Type;
  (** [types.ID] *)
  ID : Type;
  (** [key.Key] *)
  DocKey : Type;
  (** [sync.Key] *)
  SyncKey : Type;
  (** [sync.Locker] *)
  Locker : Type;
  (** [*api.DocumentSummary] and [*api.Project], the wire messages *)
  ApiDocumentSummary : Type;
  ApiProject : Type;
  (** [*types.DocumentSummary] with the two fields the handler reads *)
  DocumentSummary : Type;
  Summary_ID : DocumentSummary -> ID;
  Summary_Key : DocumentSummary -> DocKey;
  (** [*types.Project] with the field the handler reads *)
  Project : Type;
  Project_ID : Project -> ID;
  (** [*database.ClientInfo], [*database.DocInfo] *)
  ClientInfo : Type;
  DocInfo : Type;
  (** [change.Checkpoint] *)
  Checkpoint : Type;
  (** [*document.Document] *)
  Document : Type;
  (** [*change.Pack], the local one and the one the engine answers *)
  ChangePack : Type;
  ServerPack : Type;
  (** [*json.Object], [*presence.Presence] and the methods of [*json.Object] *)
  JSONObject : Type;
  Presence : Type;
  ObjectMethod : Type;
  (** [time.ActorIDFromHex] *)
  ActorIDFromHex : string -> result error ActorID;
  (** [converter.FromDocumentSummary], [converter.FromProject] *)
  FromDocumentSummary : ApiDocumentSummary -> DocumentSummary;
  FromProject : ApiProject -> Project;
  (** [packs.PushPullKey] *)
  PushPullKey : ID -> DocKey -> SyncKey;
  (** [types.IDFromActorID] *)
  IDFromActorID : ActorID -> ID;
  (** the [Checkpoint] method of [*database.ClientInfo] *)
  ClientInfo_Checkpoint : ClientInfo -> ID -> Checkpoint
}.

(** Modelled from the spec: the declaration of [types.SyncMode] is missing;
    the options of the engine are "Mode: PushOnly | PullOnly | PushPull". *)
Inductive SyncMode : Type :=
| SyncModePushOnly
| SyncModePullOnly
| SyncModePushPull.

(** Modelled from the spec: the declaration of [document.StatusType] is
    missing; the lifecycle states are "Attached, Detached, Removed". *)
Inductive StatusType : Type :=
| StatusAttached
| StatusDetached
| StatusRemoved.

(** [packs.PushPullOptions], with the two fields the handler sets. *)
Record PushPullOptions : Type := {
  Mode : SyncMode;
  Status : StatusType
}.

(** Modelled from the spec: the declaration of
    [api.ClusterServiceDetachDocumentResponse] is missing; the operation
    answers "{}", and the handler builds the message with no field set. *)
Record ClusterServiceDetachDocumentResponse : Type := {}.

(** [connect.Response]: the message the handler wraps. *)
Record Response (M : Type) : Type := { Msg : M }.

Arguments Msg {M} r.

(** [connect.NewResponse] *)
Definition NewResponse {M : Type} (m : M) : Response M := Build_Response M m.

Section ClusterServer.

Context {P : Packages}.

(** [api.ClusterServiceDetachDocumentRequest], as read through [req.Msg]. *)
Record ClusterServiceDetachDocumentRequest : Type := {
  ClientId : string;
  DocumentSummary_ : ApiDocumentSummary;
  Project_ : ApiProject
}.

(** [types.ClientRefKey] *)
Record ClientRefKey : Type := {
  ClientRefKey_ProjectID : ID;
  ClientID : ID
}.

(** [types.DocRefKey] *)
Record DocRefKey : Type := {
  DocRefKey_ProjectID : ID;
  DocID : ID
}.

(** What the callback given to [doc.Update] does with its two arguments:
    the method calls it makes on them, in order. *)
Inductive UpdateOp : Type :=
| PresenceClear (p : Presence)
| ObjectCall (root : JSONObject) (m : ObjectMethod).

(** [func(root *json.Object, p *presence.Presence) error] *)
Definition UpdateFunc : Type :=
  JSONObject -> Presence -> list UpdateOp * option error.

(** The calls of [DetachDocument] into its collaborators.  [s.backend] is
    the same in every call and is the implementation the program is run
    against. *)
Inductive Call : Type :=
| NewLocker (ctx : Ctx) (key : SyncKey)
| Lock (locker : Locker) (ctx : Ctx)
| Unlock (locker : Locker) (ctx : Ctx)
| LogError (err : error)
| FindActiveClientInfo (ctx : Ctx) (refKey : ClientRefKey)
| FindDocInfoByRefKey (ctx : Ctx) (refKey : DocRefKey)
| BuildDocForCheckpoint (ctx : Ctx) (docInfo : DocInfo) (cp : Checkpoint)
    (actorID : ActorID)
| Update (doc : Document) (updater : UpdateFunc)
| CreateChangePack (doc : Document)
| PushPull (ctx : Ctx) (project : Project) (clientInfo : ClientInfo)
    (docInfo : DocInfo) (pack : ChangePack) (opts : PushPullOptions).

Definition Resp (c : Call) : Type :=
  match c with
  | NewLocker _ _ => result error Locker
  | Lock _ _ => option error
  | Unlock _ _ => option error
  | LogError _ => unit
  | FindActiveClientInfo _ _ => result error ClientInfo
  | FindDocInfoByRefKey _ _ => result error DocInfo
  | BuildDocForCheckpoint _ _ _ _ => result error Document
  | Update _ _ => option error
  | CreateChangePack _ => ChangePack
  | PushPull _ _ _ _ _ _ => result error ServerPack
  end.

Definition M : Type -> Type := Prog Resp.

(** What the handler returns: a [*connect.Response] and an [error], either
    of which may be nil. *)
Definition Returned : Type :=
  option (Response ClusterServiceDetachDocumentResponse) * option error.

(** [v, err := f(...); if err != nil { return nil, err }] *)
Definition valueOrReturn {T : Type} (c : M (result error T)) (k : T -> M Returned)
  : M Returned :=
  r <- c ;;
  match r with
  | Err err => ret (None, Some err)
  | Ok v => k v
  end.

(** [if err := f(...); err != nil { return nil, err }] *)
Definition nilOrReturn (c : M (option error)) (k : M Returned) : M Returned :=
  r <- c ;;
  match r with
  | Some err => ret (None, Some err)
  | None => k
  end.

Local Notation "x <-- c ;; k" := (valueOrReturn c (fun x => k))
  (at level 61, c at next level, right associativity).

Local Notation "'nil' '<--' c ;; k" := (nilOrReturn c k)
  (at level 61, c at next level, right associativity).

(** [defer]: the deferred function runs when the body has returned, and,
    the results of [DetachDocument] being unnamed, cannot set them. *)
Definition defer {R : Type} (deferred : M unit) (body : M R) : M R :=
  r <- body ;;
  deferred ;;
  ret r.

(** The deferred closure of [DetachDocument];
    [logging.DefaultLogger().Error(err)] is the one call [LogError]. *)
Definition deferredUnlock (locker : Locker) (ctx : Ctx) : M unit :=
  r <- call (Unlock locker ctx) ;;
  match r with
  | Some err => call (LogError err)
  | None => ret tt
  end.

(** The closure given to [doc.Update]: it calls [p.Clear()] and returns
    nil. *)
Definition clearPresence : UpdateFunc :=
  fun (root : JSONObject) (p : Presence) => ([PresenceClear p], None).

Definition DetachDocument (ctx : Ctx)
    (req : ClusterServiceDetachDocumentRequest) : M Returned :=
  match ActorIDFromHex (ClientId req) with
  | Err err => ret (None, Some err)
  | Ok actorID =>
      let summary := FromDocumentSummary (DocumentSummary_ req) in
      let project := FromProject (Project_ req) in
      locker <-- call (NewLocker ctx
                         (PushPullKey (Project_ID project)
                            (Summary_Key summary))) ;;
      nil <-- call (Lock locker ctx) ;;
      defer (deferredUnlock locker ctx) (
        clientInfo <-- call (FindActiveClientInfo ctx
                               {| ClientRefKey_ProjectID := Project_ID project;
                                  ClientID := IDFromActorID actorID |}) ;;
        let docRefKey :=
          {| DocRefKey_ProjectID := Project_ID project;
             DocID := Summary_ID summary |} in
        docInfo <-- call (FindDocInfoByRefKey ctx docRefKey) ;;
        doc <-- call (BuildDocForCheckpoint ctx docInfo
                        (ClientInfo_Checkpoint clientInfo (Summary_ID summary))
                        actorID) ;;
        nil <-- call (Update doc clearPresence) ;;
        pack <- call (CreateChangePack doc) ;;
        _ <-- call (PushPull ctx project clientInfo docInfo pack
                      {| Mode := SyncModePushPull;
                         Status := StatusDetached |}) ;;
        ret (Some (NewResponse Build_ClusterServiceDetachDocumentResponse),
             None))
  end.

(** The converted request values the handler works with. *)
Definition summaryOf (req : ClusterServiceDetachDocumentRequest)
  : DocumentSummary := FromDocumentSummary (DocumentSummary_ req).

Definition projectOf (req : ClusterServiceDetachDocumentRequest)
  : Project := FromProject (Project_ req).

Definition lockKeyOf (req : ClusterServiceDetachDocumentRequest) : SyncKey :=
  PushPullKey (Project_ID (projectOf req)) (Summary_Key (summaryOf req)).

Definition detached : PushPullOptions :=
  {| Mode := SyncModePushPull; Status := StatusDetached |}.

Definition emptyResponse : Response ClusterServiceDetachDocumentResponse :=
  NewResponse Build_ClusterServiceDetachDocumentResponse.

(** ** Reading the log of a run *)

Definition errOf {T : Type} (r : result error T) : option error :=
  match r with
  | Ok _ => None
  | Err err => Some err
  end.

(** The error a step answered, for the steps whose error the handler
    returns.  [Unlock] is not one of them: its error goes to the logger. *)
Definition failure (e : Event Resp) : option error :=
  match e with
  | existT _ c x =>
      match c return Resp c -> option error with
      | NewLocker _ _ => errOf
      | Lock _ _ => fun r => r
      | Unlock _ _ => fun _ => None
      | LogError _ => fun _ => None
      | FindActiveClientInfo _ _ => errOf
      | FindDocInfoByRefKey _ _ => errOf
      | BuildDocForCheckpoint _ _ _ _ => errOf
      | Update _ _ => fun r => r
      | CreateChangePack _ => fun _ => None
      | PushPull _ _ _ _ _ _ => errOf
      end x
  end.

(** The error [Unlock] answered. *)
Definition unlockFailure (e : Event Resp) : option error :=
  match e with
  | existT _ (Unlock _ _) r => r
  | _ => None
  end.

Fixpoint firstFailure (t : list (Event Resp)) : option error :=
  match t with
  | [] => None
  | e :: t' =>
      match failure e with
      | Some err => Some err
      | None => firstFailure t'
      end
  end.

(** The part of the log that follows the first failed step. *)
Fixpoint afterFailure (t : list (Event Resp)) : list (Event Resp) :=
  match t with
  | [] => []
  | e :: t' =>
      match failure e with
      | Some _ => t'
      | None => afterFailure t'
      end
  end.

(** The calls of the deferred closure. *)
Definition isRelease (c : Call) : bool :=
  match c with
  | Unlock _ _ | LogError _ => true
  | _ => false
  end.

Definition isUnlock (c : Call) : bool :=
  match c with
  | Unlock _ _ => true
  | _ => false
  end.

Definition isLockerCall (c : Call) : bool :=
  match c with
  | Lock _ _ | Unlock _ _ => true
  | _ => false
  end.

(** The calls behind the lock: directory lookups, snapshot build, local
    update, packaging and the engine. *)
Definition isGuarded (c : Call) : bool :=
  match c with
  | FindActiveClientInfo _ _ | FindDocInfoByRefKey _ _
  | BuildDocForCheckpoint _ _ _ _ | Update _ _ | CreateChangePack _
  | PushPull _ _ _ _ _ _ => true
  | _ => false
  end.

(** The keys [NewLocker] was called with. *)
Fixpoint lockerKeys (cs : list Call) : list SyncKey :=
  match cs with
  | [] => []
  | NewLocker _ key :: cs' => key :: lockerKeys cs'
  | _ :: cs' => lockerKeys cs'
  end.

(** The lockers whose [Lock] answered nil. *)
Fixpoint lockedBy (t : list (Event Resp)) : list (Locker * Ctx) :=
  match t with
  | [] => []
  | existT _ (Lock locker ctx) None :: t' => (locker, ctx) :: lockedBy t'
  | _ :: t' => lockedBy t'
  end.

(** The lockers [Unlock] was called on. *)
Fixpoint unlockedBy (cs : list Call) : list (Locker * Ctx) :=
  match cs with
  | [] => []
  | Unlock locker ctx :: cs' => (locker, ctx) :: unlockedBy cs'
  | _ :: cs' => unlockedBy cs'
  end.

(** The callbacks [doc.Update] was called with. *)
Fixpoint updaters (cs : list Call) : list UpdateFunc :=
  match cs with
  | [] => []
  | Update _ f :: cs' => f :: updaters cs'
  | _ :: cs' => updaters cs'
  end.

(** What the deferred closure leaves in the log for an answer of
    [Unlock]. *)
Definition released (locker : Locker) (ctx : Ctx) (u : option error)
  : list (Event Resp) :=
  ev (Unlock locker ctx) u ::
  match u with
  | Some err => [ev (LogError err) tt]
  | None => []
  end.

(** ** The document behind [doc.Update] and [doc.CreateChangePack] *)

(** An operation on the JSON root, as opposed to one on the presence. *)
Definition isContentEdit (op : UpdateOp) : bool :=
  match op with
  | PresenceClear _ => false
  | ObjectCall _ _ => true
  end.

(** Modelled from the spec: [document.Document] is missing.  The snapshot
    builder gives "a materialized document state plus the ability to
    compute a ChangePack representing any local mutations applied after
    materialization"; a ChangePack is "an ordered sequence of Changes plus
    the checkpoint context they apply against". *)
Record DocState : Type := {
  base : Checkpoint;
  localMutations : list UpdateOp
}.

(** Modelled from the spec: the pack of the missing [document.Document],
    its "ordered sequence of Changes" and its "checkpoint context". *)
Record Pack : Type := {
  packCheckpoint : Checkpoint;
  changes : list UpdateOp
}.

(** Modelled from the spec: [Update] of the missing [document.Document].
    The mutations of the callback are "applied to the in-memory snapshot
    before it is packaged into a ChangePack".  What becomes of the
    mutations of a callback that returns an error is not said; here they
    are dropped and the error is returned, and nothing below relies on
    that case. *)
Definition docUpdate (f : UpdateFunc) (root : JSONObject) (p : Presence)
    (d : DocState) : DocState * option error :=
  let (ops, r) := f root p in
  match r with
  | Some err => (d, Some err)
  | None =>
      ({| base := base d; localMutations := localMutations d ++ ops |},
       None)
  end.

(** Modelled from the spec: [CreateChangePack] of the missing
    [document.Document], the pack "representing any local mutations
    applied after materialization". *)
Definition docCreateChangePack (d : DocState) : Pack :=
  {| packCheckpoint := base d; changes := localMutations d |}.

(** ** Further readings of the log *)

(** The context a call was given, for the calls that take one. *)
Definition ctxOf (c : Call) : option Ctx :=
  match c with
  | NewLocker ctx _ => Some ctx
  | Lock _ ctx => Some ctx
  | Unlock _ ctx => Some ctx
  | LogError _ => None
  | FindActiveClientInfo ctx _ => Some ctx
  | FindDocInfoByRefKey ctx _ => Some ctx
  | BuildDocForCheckpoint ctx _ _ _ => Some ctx
  | Update _ _ => None
  | CreateChangePack _ => None
  | PushPull ctx _ _ _ _ _ => Some ctx
  end.

(** Which collaborator function a call is a call of. *)
Inductive CallKind : Type :=
| KNewLocker
| KLock
| KUnlock
| KLogError
| KFindActiveClientInfo
| KFindDocInfoByRefKey
| KBuildDocForCheckpoint
| KUpdate
| KCreateChangePack
| KPushPull.

Definition kindOf (c : Call) : CallKind :=
  match c with
  | NewLocker _ _ => KNewLocker
  | Lock _ _ => KLock
  | Unlock _ _ => KUnlock
  | LogError _ => KLogError
  | FindActiveClientInfo _ _ => KFindActiveClientInfo
  | FindDocInfoByRefKey _ _ => KFindDocInfoByRefKey
  | BuildDocForCheckpoint _ _ _ _ => KBuildDocForCheckpoint
  | Update _ _ => KUpdate
  | CreateChangePack _ => KCreateChangePack
  | PushPull _ _ _ _ _ _ => KPushPull
  end.

(** The keys the handler looks the client and the document up with. *)
Definition clientRefKeyOf (req : ClusterServiceDetachDocumentRequest)
    (actorID : ActorID) : ClientRefKey :=
  {| ClientRefKey_ProjectID := Project_ID (projectOf req);
     ClientID := IDFromActorID actorID |}.

Definition docRefKeyOf (req : ClusterServiceDetachDocumentRequest)
  : DocRefKey :=
  {| DocRefKey_ProjectID := Project_ID (projectOf req);
     DocID := Summary_ID (summaryOf req) |}.

End ClusterServer.

(** ** A backend that keeps the modelled document *)

(** Modelled from the spec: the missing [packs.BuildDocForCheckpoint],
    [Update] and [CreateChangePack] of [document.Document], as a condition
    on a backend.  [view] reads the state of a document the backend holds
    in memory and [packOf] the content of a pack.  The builder answers "a
    materialized document state", to which no local mutation has been
    applied yet; [Update] runs the callback on the root and the presence
    of the document, as [docUpdate]; [CreateChangePack] answers the pack
    "representing any local mutations applied after materialization", as
    [docCreateChangePack]. *)
Record ImplementsDocument {P : Packages} {World : Type}
    (h : forall c : Call, World -> Resp c * World)
    (view : World -> Document -> option DocState)
    (packOf : ChangePack -> Pack) : Prop := {
  built_fresh :
    forall (ctx : Ctx) (docInfo : DocInfo) (cp : Checkpoint)
           (actorID : ActorID) (w : World) (doc : Document) (w' : World),
      h (BuildDocForCheckpoint ctx docInfo cp actorID) w = (Ok doc, w') ->
      view w' doc = Some {| base := cp; localMutations := [] |};
  update_applies :
    forall (doc : Document) (f : UpdateFunc) (w : World) (r : option error)
           (w' : World) (d : DocState),
      h (Update doc f) w = (r, w') ->
      view w doc = Some d ->
      exists (root : JSONObject) (p : Presence),
        r = snd (docUpdate f root p d) /\
        view w' doc = Some (fst (docUpdate f root p d));
  pack_reads :
    forall (doc : Document) (w : World) (pack : ChangePack) (w' : World)
           (d : DocState),
      h (CreateChangePack doc) w = (pack, w') ->
      view w doc = Some d ->
      packOf pack = docCreateChangePack d
}.

Arguments built_fresh {P World h view packOf} i ctx docInfo cp actorID w doc w' _.
Arguments update_applies {P World h view packOf} i doc f w r w' d _ _.
Arguments pack_reads {P World h view packOf} i doc w pack w' d _ _.

(** ** A sample backend

    One choice of the abstract packages and one family of collaborator
    implementations, on which the handler can be evaluated. *)

Module Sample.

Local Open Scope string_scope.

Definition isHexDigit (a : Ascii.ascii) : bool :=
  let n := Ascii.nat_of_ascii a in
  (Nat.leb 48 n && Nat.leb n 57) || (Nat.leb 97 n && Nat.leb n 102).

Fixpoint allHex (s : string) : bool :=
  match s with
  | EmptyString => true
  | String a s' => isHexDigit a && allHex s'
  end.

(** The sample parser accepts twenty-four lower-case hexadecimal digits. *)
Definition actorIDFromHex (s : string) : result string string :=
  if allHex s && Nat.eqb (String.length s) 24
  then Ok s
  else Err "invalid actor id".

Definition checkpointOf (ci : list (string * (nat * nat))) (docID : string)
  : nat * nat :=
  match find (fun e => String.eqb (fst e) docID) ci with
  | Some e => snd e
  | None => (0, 0)
  end.

#[export] Instance packages : Packages := {|
  Ctx := unit;
  error := string;
  ActorID := string;
  ID := string;
  DocKey := string;
  SyncKey := string;
  Locker := string;
  ApiDocumentSummary := string * string;
  ApiProject := string;
  DocumentSummary := string * string;
  Summary_ID := fst;
  Summary_Key := snd;
  Project := string;
  Project_ID := fun p => p;
  ClientInfo := list (string * (nat * nat));
  DocInfo := string;
  Checkpoint := nat * nat;
  Document := string;
  ChangePack := nat * nat;
  ServerPack := unit;
  JSONObject := unit;
  Presence := unit;
  ObjectMethod := string;
  ActorIDFromHex := actorIDFromHex;
  FromDocumentSummary := fun s => s;
  FromProject := fun p => p;
  PushPullKey := fun projectID docKey =>
    "pushpull-" ++ projectID ++ "-" ++ docKey;
  IDFromActorID := fun a => a;
  ClientInfo_Checkpoint := checkpointOf
|}.

(** The world counts the calls served.  [failing] names the collaborator
    that answers with an error, if any. *)
Definition fails (failing name : string) : bool := String.eqb failing name.

Definition answer {T : Type} (failing name : string) (v : T)
  : result string T :=
  if fails failing name then Err (name ++ " failed") else Ok v.

Definition status (failing name : string) : option string :=
  if fails failing name then Some (name ++ " failed") else None.

Definition backend (failing : string) (c : Call) : nat -> Resp c * nat :=
  match c return nat -> Resp c * nat with
  | NewLocker _ key => fun w => (answer failing "NewLocker" key, S w)
  | Lock _ _ => fun w => (status failing "Lock", S w)
  | Unlock _ _ => fun w => (status failing "Unlock", S w)
  | LogError _ => fun w => (tt, S w)
  | FindActiveClientInfo _ _ => fun w =>
      (answer failing "FindActiveClientInfo" [("doc-1", (5, 3))], S w)
  | FindDocInfoByRefKey _ refKey => fun w =>
      (answer failing "FindDocInfoByRefKey" (DocID refKey), S w)
  | BuildDocForCheckpoint _ docInfo _ _ => fun w =>
      (answer failing "BuildDocForCheckpoint" docInfo, S w)
  | Update _ _ => fun w => (status failing "Update", S w)
  | CreateChangePack _ => fun w => ((5, 4), S w)
  | PushPull _ _ _ _ _ _ => fun w => (answer failing "PushPull" tt, S w)
  end.

Definition actor : string := "0123456789abcdef01234567".

Definition request (clientId docID : string)
  : ClusterServiceDetachDocumentRequest :=
  {| ClientId := clientId;
     DocumentSummary_ := (docID, "notes");
     Project_ := "proj" |}.

Definition req : ClusterServiceDetachDocumentRequest :=
  request actor "doc-1".

End Sample.

(** ** A sample backend with a document in memory

    The packages of [Sample], but for the pack, which carries its changes,
    and a backend that holds the document last built and implements
    [Update] and [CreateChangePack] on it as the modelled document does. *)

Module DocSample.

Local Open Scope string_scope.

(** A change of a pack: [None] for a presence clear, [Some m] for a call of
    the method [m] of the root. *)
Definition WireChange : Type := option string.

#[export] Instance packages : Packages := {|
  Ctx := unit;
  error := string;
  ActorID := string;
  ID := string;
  DocKey := string;
  SyncKey := string;
  Locker := string;
  ApiDocumentSummary := string * string;
  ApiProject := string;
  DocumentSummary := string * string;
  Summary_ID := fst;
  Summary_Key := snd;
  Project := string;
  Project_ID := fun p => p;
  ClientInfo := list (string * (nat * nat));
  DocInfo := string;
  Checkpoint := nat * nat;
  Document := string;
  ChangePack := (nat * nat) * list WireChange;
  ServerPack := unit;
  JSONObject := unit;
  Presence := unit;
  ObjectMethod := string;
  ActorIDFromHex := Sample.actorIDFromHex;
  FromDocumentSummary := fun s => s;
  FromProject := fun p => p;
  PushPullKey := fun projectID docKey =>
    "pushpull-" ++ projectID ++ "-" ++ docKey;
  IDFromActorID := fun a => a;
  ClientInfo_Checkpoint := Sample.checkpointOf
|}.

Definition encode (op : UpdateOp) : WireChange :=
  match op with
  | PresenceClear _ => None
  | ObjectCall _ m => Some m
  end.

Definition decode (c : WireChange) : UpdateOp :=
  match c with
  | None => PresenceClear tt
  | Some m => ObjectCall tt m
  end.

Definition packOf (pack : ChangePack) : Pack :=
  {| packCheckpoint := fst pack; changes := map decode (snd pack) |}.

(** The world is the document in memory, if one has been built. *)
Definition view (w : option DocState) (doc : Document) : option DocState := w.

Definition backend (c : Call)
  : option DocState -> Resp c * option DocState :=
  match c return option DocState -> Resp c * option DocState with
  | NewLocker _ key => fun w => (Ok key, w)
  | Lock _ _ => fun w => (None, w)
  | Unlock _ _ => fun w => (None, w)
  | LogError _ => fun w => (tt, w)
  | FindActiveClientInfo _ _ => fun w => (Ok [("doc-1", (5, 3))], w)
  | FindDocInfoByRefKey _ refKey => fun w => (Ok (DocID refKey), w)
  | BuildDocForCheckpoint _ docInfo cp _ => fun _ =>
      (Ok docInfo, Some {| base := cp; localMutations := [] |})
  | Update _ f => fun w =>
      match w with
      | Some d => (snd (docUpdate f tt tt d), Some (fst (docUpdate f tt tt d)))
      | None => (Some "no document", None)
      end
  | CreateChangePack _ => fun w =>
      match w with
      | Some d => ((base d, map encode (localMutations d)), w)
      | None => (((0, 0), []), w)
      end
  | PushPull _ _ _ _ _ _ => fun w => (Ok tt, w)
  end.

Definition req : ClusterServiceDetachDocumentRequest :=
  {| ClientId := Sample.actor;
     DocumentSummary_ := ("doc-1", "notes");
     Project_ := "proj" |}.

End DocSample.

(** ** Proof steps *)

(** Answer of the next call of the backend [hh], by cases. *)
Ltac step hh :=
  match goal with
  | |- context [hh ?c ?w] =>
      let x := fresh "x" in
      let w' := fresh "w" in
      let E := fresh "E" in
      destruct (hh c w) as [x w'] eqn:E; cbn in x; try destruct x; cbn
  end.

Ltac parse req :=
  unfold returned, trace, DetachDocument, lockKeyOf, projectOf, summaryOf;
  let actorID := fresh "actorID" in
  let err := fresh "err" in
  let Hparse := fresh "Hparse" in
  destruct (ActorIDFromHex (ClientId req)) as [actorID|err] eqn:Hparse;
  cbn.

(** Every exit path of the handler, one goal each. *)
Ltac paths hh req := parse req; repeat step hh.

(** A hypothesis that a given call or event is in an explicit log, by
    cases on its position. *)
Ltac position H :=
  cbn in H;
  repeat (let H' := fresh H in destruct H as [H'|H]; [ | ]);
  try contradiction.

Ltac member := cbn; repeat (first [ left; reflexivity | right ]).

(** ** Facts shared by the properties *)

Section Runs.

Context {P : Packages}.
Variable World : Type.
Variable h : forall c : Call, World -> Resp c * World.

(** A locker is constructed once the client ID has parsed, and with the
    key of the request's project ID and document key. *)
Lemma locker_keys_of_run
    (ctx : Ctx) (req : ClusterServiceDetachDocumentRequest) (w : World) :
  lockerKeys (calls (trace h (DetachDocument ctx req) w)) =
    match ActorIDFromHex (ClientId req) with
    | Ok _ => [lockKeyOf req]
    | Err _ => []
    end.
Proof. paths h req; reflexivity. Qed.

(** The deferred closure does not decide what is returned: the returned
    pair is that of the first failed step, or the empty response. *)
Lemma returned_of_run
    (ctx : Ctx) (req : ClusterServiceDetachDocumentRequest) (w : World) :
  returned h (DetachDocument ctx req) w =
    match ActorIDFromHex (ClientId req) with
    | Err err => (None, Some err)
    | Ok _ =>
        match firstFailure (trace h (DetachDocument ctx req) w) with
        | Some err => (None, Some err)
        | None => (Some emptyResponse, None)
        end
    end.
Proof. paths h req; reflexivity. Qed.

(** On the modelled document, the update with the presence-clearing
    callback answers nil and adds the presence clear, and nothing else, to
    the local mutations. *)
Lemma docUpdate_clearPresence
    (root : JSONObject) (p : Presence) (d : DocState) :
  docUpdate clearPresence root p d =
    ({| base := base d;
        localMutations := localMutations d ++ [PresenceClear p] |}, None).
Proof. reflexivity. Qed.

End Runs.

(** The sample backend with a document in memory implements the modelled
    document. *)
Lemma DocSample_decode_encode (ops : list (@UpdateOp DocSample.packages)) :
  map DocSample.decode (map DocSample.encode ops) = ops.
Proof.
  induction ops as [ | op ops IH ]; [ reflexivity | ].
  cbn. rewrite IH. destruct op as [ [] | [] m ]; reflexivity.
Qed.

Lemma DocSample_implements :
  ImplementsDocument DocSample.backend DocSample.view DocSample.packOf.
Proof.
  split.
  - intros ctx docInfo cp actorID w doc w' Hbuild.
    cbn in Hbuild. injection Hbuild as <- <-. reflexivity.
  - intros doc f w r w' d Hupdate Hview.
    unfold DocSample.view in *. subst w. cbn in Hupdate.
    injection Hupdate as <- <-.
    exists tt, tt. split; reflexivity.
  - intros doc w pack w' d Hpack Hview.
    unfold DocSample.view in *. subst w. cbn in Hpack.
    injection Hpack as <- <-.
    unfold DocSample.packOf, docCreateChangePack. cbn.
    rewrite DocSample_decode_encode. reflexivity.
Qed.

(** ** Properties of [DetachDocument] *)

Section DetachDocumentProperties.

Context {P : Packages}.

(** An arbitrary backend: any state, any implementation of the calls. *)
Variable World : Type.
Variable h : forall c : Call, World -> Resp c * World.

(** C2: a request whose client ID does not parse as an ActorID is answered
    with the parse error and a nil response, and no collaborator is
    called at all: no locker is constructed, locked or unlocked, no
    lookup, snapshot build, update or push-pull is made, and the backend
    is left as it was. *)
Theorem invalid_actor_id_fails_fast
    (ctx : Ctx) (req : ClusterServiceDetachDocumentRequest) (w : World)
    (err : error) :
  ActorIDFromHex (ClientId req) = Err err ->
  run h (DetachDocument ctx req) w = ((None, Some err), w, []) /\
  lockerKeys (calls (trace h (DetachDocument ctx req) w)) = [] /\
  existsb isLockerCall (calls (trace h (DetachDocument ctx req) w)) = false /\
  existsb isGuarded (calls (trace h (DetachDocument ctx req) w)) = false.
Proof.
  intros Hparse.
  unfold trace, DetachDocument.
  rewrite Hparse. cbn. repeat split.
Qed.

(** C4: when [Lock] answers an error, the handler returns that error with
    a nil response; the log holds the construction of the locker and the
    failed [Lock] only, so no lookup, snapshot build, update, packaging
    or push-pull is made (nor is [Unlock] called). *)
Theorem lock_failure_stops
    (ctx : Ctx) (req : ClusterServiceDetachDocumentRequest) (w w1 w2 : World)
    (actorID : ActorID) (locker : Locker) (err : error) :
  ActorIDFromHex (ClientId req) = Ok actorID ->
  h (NewLocker ctx (lockKeyOf req)) w = (Ok locker, w1) ->
  h (Lock locker ctx) w1 = (Some err, w2) ->
  run h (DetachDocument ctx req) w =
    ((None, Some err), w2,
     [ev (NewLocker ctx (lockKeyOf req)) (Ok locker);
      ev (Lock locker ctx) (Some err)]) /\
  existsb isGuarded (calls (trace h (DetachDocument ctx req) w)) = false.
Proof.
  intros Hparse Hnew Hlock.
  unfold trace, DetachDocument, lockKeyOf, projectOf, summaryOf in *.
  rewrite Hparse. cbn. rewrite Hnew. cbn. rewrite Hlock. cbn.
  split; reflexivity.
Qed.

(** C7: when the client ID parses and no step of the run answers an
    error, the handler returns the response built from the empty
    [ClusterServiceDetachDocumentResponse] and a nil error. *)
Theorem success_returns_empty_response
    (ctx : Ctx) (req : ClusterServiceDetachDocumentRequest) (w : World)
    (actorID : ActorID) :
  ActorIDFromHex (ClientId req) = Ok actorID ->
  firstFailure (trace h (DetachDocument ctx req) w) = None ->
  returned h (DetachDocument ctx req) w = (Some emptyResponse, None) /\
  Msg emptyResponse = Build_ClusterServiceDetachDocumentResponse.
Proof.
  intros Hparse Hfail.
  rewrite returned_of_run, Hparse, Hfail.
  split; reflexivity.
Qed.

(** C6: a failing call returns a nil response with the error of the first
    step that failed, and makes none of the later steps.  When the client
    ID does not parse, the parse error is returned and nothing is called.
    When it parses, any step of the run that answers an error makes the
    handler return a nil response with exactly that error, it is the first
    and only failed step of the run, and after it only the deferred
    [Unlock] and its logging appear in the log.  Conversely, an error the
    handler returns always comes with a nil response and is the parse
    error or the error of that first failed step. *)
Theorem failure_returns_first_error
    (ctx : Ctx) (req : ClusterServiceDetachDocumentRequest) (w : World) :
  (forall perr : error,
      ActorIDFromHex (ClientId req) = Err perr ->
      run h (DetachDocument ctx req) w = ((None, Some perr), w, [])) /\
  (forall (e : Event Resp) (err : error),
      In e (trace h (DetachDocument ctx req) w) ->
      failure e = Some err ->
      returned h (DetachDocument ctx req) w = (None, Some err) /\
      firstFailure (trace h (DetachDocument ctx req) w) = Some err /\
      forallb isRelease
        (calls (afterFailure (trace h (DetachDocument ctx req) w))) = true) /\
  (forall (actorID : ActorID) (err : error),
      ActorIDFromHex (ClientId req) = Ok actorID ->
      firstFailure (trace h (DetachDocument ctx req) w) = Some err ->
      returned h (DetachDocument ctx req) w = (None, Some err)) /\
  (forall err : error,
      snd (returned h (DetachDocument ctx req) w) = Some err ->
      fst (returned h (DetachDocument ctx req) w) = None /\
      match ActorIDFromHex (ClientId req) with
      | Err perr => perr = err /\ trace h (DetachDocument ctx req) w = []
      | Ok _ =>
          firstFailure (trace h (DetachDocument ctx req) w) = Some err /\
          forallb isRelease
            (calls (afterFailure (trace h (DetachDocument ctx req) w))) = true
      end).
Proof.
  split; [ | split; [ | split ] ].
  - intros perr Hparse. unfold DetachDocument. rewrite Hparse. reflexivity.
  - paths h req; intros failed err' Hin Hfailed; position Hin; subst failed;
      cbn in Hfailed;
      first [ discriminate Hfailed
            | injection Hfailed as ->; repeat split ].
  - intros actorID err Hparse Hfirst.
    rewrite returned_of_run, Hparse, Hfirst. reflexivity.
  - paths h req; intros err' Herr; try discriminate;
      injection Herr as ->; repeat split.
Qed.


(** C9: in every run, [Unlock] is called on exactly the lockers whose
    [Lock] answered nil, which is one locker at most, hence once when
    [Lock] succeeded and not at all otherwise; and when [NewLocker]
    answers an error, that error is returned and neither [Lock] nor
    [Unlock] is called. *)
Theorem unlock_once_iff_locked
    (ctx : Ctx) (req : ClusterServiceDetachDocumentRequest) (w : World) :
  unlockedBy (calls (trace h (DetachDocument ctx req) w)) =
    lockedBy (trace h (DetachDocument ctx req) w) /\
  List.length (lockedBy (trace h (DetachDocument ctx req) w)) <= 1 /\
  forall (c : Ctx) (key : SyncKey) (err : error),
    In (ev (NewLocker c key) (Err err))
       (trace h (DetachDocument ctx req) w) ->
    returned h (DetachDocument ctx req) w = (None, Some err) /\
    existsb isLockerCall (calls (trace h (DetachDocument ctx req) w)) = false.
Proof.
  paths h req; (split; [reflexivity | split; [cbn; lia | ]]);
    intros c key err0 Hin; position Hin;
    match goal with
    | Hev : _ = ev (NewLocker _ _) (Err _) |- _ =>
        first
          [ discriminate Hev
          | apply (f_equal failure) in Hev; cbn in Hev;
            first [ discriminate Hev | injection Hev as -> ] ]
    end;
    split; reflexivity.
Qed.

(** C8: two calls whose requests carry the same project ID and the same
    document key, whatever else differs (the other request fields, the
    context, the backend and its state), construct their lockers with
    equal keys; each constructs one locker exactly when its client ID
    parses, with the key of its project ID and document key. *)
Theorem lock_key_of_project_and_document
    (World' : Type) (h' : forall c : Call, World' -> Resp c * World')
    (ctx ctx' : Ctx) (req req' : ClusterServiceDetachDocumentRequest)
    (w : World) (w' : World') :
  Project_ID (projectOf req) = Project_ID (projectOf req') ->
  Summary_Key (summaryOf req) = Summary_Key (summaryOf req') ->
  (forall key key' : SyncKey,
      In key (lockerKeys (calls (trace h (DetachDocument ctx req) w))) ->
      In key' (lockerKeys (calls (trace h' (DetachDocument ctx' req') w'))) ->
      key = key') /\
  lockerKeys (calls (trace h (DetachDocument ctx req) w)) =
    match ActorIDFromHex (ClientId req) with
    | Ok _ =>
        [PushPullKey (Project_ID (projectOf req)) (Summary_Key (summaryOf req))]
    | Err _ => []
    end.
Proof.
  intros Hproject Hkey.
  rewrite !locker_keys_of_run.
  unfold lockKeyOf. rewrite <- Hproject, <- Hkey.
  split; [ | reflexivity ].
  intros key key' Hin Hin'.
  destruct (ActorIDFromHex (ClientId req)); [ | contradiction ].
  destruct (ActorIDFromHex (ClientId req')); [ | contradiction ].
  destruct Hin as [<- | []]. destruct Hin' as [<- | []]. reflexivity.
Qed.

(** C3: once [Lock] has answered nil, [Unlock] is called on that locker
    whatever the exit path; an error answered by [Unlock] is given to the
    logger; and the returned pair is the same under any backend that
    differs only in what [Unlock] does and answers. *)
Theorem unlock_on_every_exit
    (h' : forall c : Call, World -> Resp c * World)
    (ctx : Ctx) (req : ClusterServiceDetachDocumentRequest) (w : World) :
  (forall (c : Call) (w0 : World), isUnlock c = false -> h' c w0 = h c w0) ->
  (forall (locker : Locker) (c : Ctx),
      In (ev (Lock locker c) None) (trace h (DetachDocument ctx req) w) ->
      In (Unlock locker c) (calls (trace h (DetachDocument ctx req) w))) /\
  (forall (locker : Locker) (c : Ctx) (err : error),
      In (ev (Unlock locker c) (Some err))
         (trace h (DetachDocument ctx req) w) ->
      In (LogError err) (calls (trace h (DetachDocument ctx req) w))) /\
  returned h' (DetachDocument ctx req) w =
    returned h (DetachDocument ctx req) w.
Proof.
  intros Hagree. split; [ | split ].
  - paths h req; intros locker c Hin; position Hin;
      match goal with
      | Hev : _ = ev (Lock _ _) None |- _ =>
          first
            [ discriminate Hev
            | apply (f_equal failure) in Hev; discriminate Hev
            | apply (f_equal (@projT1 _ _)) in Hev; cbn in Hev;
              injection Hev as <- <-; member ]
      end.
  - paths h req; intros locker c err' Hin; position Hin;
      match goal with
      | Hev : _ = ev (Unlock _ _) (Some _) |- _ =>
          first
            [ discriminate Hev
            | apply (f_equal unlockFailure) in Hev; cbn in Hev;
              first [ discriminate Hev | injection Hev as <-; member ] ]
      end.
  - parse req; [ | reflexivity ].
    repeat
      (try
         match goal with
         | |- context [h' ?c ?w0] => rewrite (Hagree c w0 eq_refl)
         end;
       first [ step h | step h' ]);
      reflexivity.
Qed.

(** C5: whenever the engine is called, it is called with mode PushPull
    and status Detached, on the pack created from the document that was
    just built and then updated, without error, by the callback whose
    one operation is to clear the presence; and every call that returns
    a response has made such a call of the engine and got no error. *)
Theorem detach_clears_presence_then_pushes
    (ctx : Ctx) (req : ClusterServiceDetachDocumentRequest) (w : World) :
  (forall (c : Ctx) (project : Project) (clientInfo : ClientInfo)
          (docInfo : DocInfo) (pack : ChangePack) (opts : PushPullOptions),
      In (PushPull c project clientInfo docInfo pack opts)
         (calls (trace h (DetachDocument ctx req) w)) ->
      Mode opts = SyncModePushPull /\
      Status opts = StatusDetached /\
      exists t0 cp actorID doc r t1,
        trace h (DetachDocument ctx req) w =
          t0 ++
          [ev (BuildDocForCheckpoint c docInfo cp actorID) (Ok doc);
           ev (Update doc clearPresence) None;
           ev (CreateChangePack doc) pack;
           ev (PushPull c project clientInfo docInfo pack opts) r]
          ++ t1) /\
  (forall (root : JSONObject) (p : Presence),
      clearPresence root p = ([PresenceClear p], None)) /\
  (forall resp : Response ClusterServiceDetachDocumentResponse,
      returned h (DetachDocument ctx req) w = (Some resp, None) ->
      exists clientInfo docInfo pack pulled,
        In (ev (PushPull ctx (projectOf req) clientInfo docInfo pack detached)
              (Ok pulled))
           (trace h (DetachDocument ctx req) w)).
Proof.
  split; [ | split; [ reflexivity | ] ].
  - paths h req; intros c project clientInfo docInfo pack opts Hin;
      position Hin; try discriminate;
      match goal with
      | Hc : PushPull _ _ _ _ _ _ = PushPull _ _ _ _ _ _ |- _ =>
          injection Hc as <- <- <- <- <- <-
      end;
      (split; [ reflexivity | split; [ reflexivity | ] ]);
      eexists [_; _; _; _]; do 5 eexists; reflexivity.
  - paths h req; intros resp Hret; try discriminate;
      do 4 eexists; member.
Qed.

(** C10: the callbacks given to [doc.Update] in a run are the
    presence-clearing one, once at most; that callback makes one call,
    [Clear] on the presence, none on the JSON root, and returns nil; the
    pack given to the engine is the one created from the document right
    after that one update, no other update having been made in the run
    before it; and on any backend that implements the modelled document
    (the builder answers a document without local mutations, [Update]
    applies the callback, [CreateChangePack] packs the local mutations),
    the pack given to the engine in a run holds one change, the presence
    clear, and no content edit. *)
Theorem update_only_clears_presence
    (ctx : Ctx) (req : ClusterServiceDetachDocumentRequest) (w : World) :
  (updaters (calls (trace h (DetachDocument ctx req) w)) = [] \/
   updaters (calls (trace h (DetachDocument ctx req) w)) = [clearPresence]) /\
  (forall (root : JSONObject) (p : Presence),
      fst (clearPresence root p) = [PresenceClear p] /\
      existsb isContentEdit (fst (clearPresence root p)) = false /\
      snd (clearPresence root p) = None) /\
  (forall (c : Ctx) (project : Project) (clientInfo : ClientInfo)
          (docInfo : DocInfo) (pack : ChangePack) (opts : PushPullOptions),
      In (PushPull c project clientInfo docInfo pack opts)
         (calls (trace h (DetachDocument ctx req) w)) ->
      exists t0 doc r t1,
        trace h (DetachDocument ctx req) w =
          t0 ++
          [ev (Update doc clearPresence) None;
           ev (CreateChangePack doc) pack;
           ev (PushPull c project clientInfo docInfo pack opts) r]
          ++ t1 /\
        updaters (calls t0) = []) /\
  (forall (view : World -> Document -> option DocState)
          (packOf : ChangePack -> Pack),
      ImplementsDocument h view packOf ->
      forall (c : Ctx) (project : Project) (clientInfo : ClientInfo)
             (docInfo : DocInfo) (pack : ChangePack) (opts : PushPullOptions),
        In (PushPull c project clientInfo docInfo pack opts)
           (calls (trace h (DetachDocument ctx req) w)) ->
        exists p : Presence,
          changes (packOf pack) = [PresenceClear p] /\
          existsb isContentEdit (changes (packOf pack)) = false).
Proof.
  split; [ | split; [ | split ] ].
  - paths h req; first [ left; reflexivity | right; reflexivity ].
  - intros root p. repeat split.
  - paths h req; intros c project clientInfo docInfo pack opts Hin;
      position Hin; try discriminate;
      match goal with
      | Hc : PushPull _ _ _ _ _ _ = PushPull _ _ _ _ _ _ |- _ =>
          injection Hc as <- <- <- <- <- <-
      end;
      eexists [_; _; _; _; _]; do 3 eexists; split; reflexivity.
  - intros view packOf Himpl.
    paths h req; intros c project clientInfo docInfo pack opts Hin;
      position Hin; try discriminate;
      match goal with
      | Hc : PushPull _ _ _ _ _ _ = PushPull _ _ _ _ _ _ |- _ =>
          injection Hc as <- <- <- <- <- <-
      end;
      match goal with
      | Hbuild : h (BuildDocForCheckpoint _ _ _ _) _ = (Ok ?doc, _),
        Hupdate : h (Update ?doc clearPresence) _ = (None, _),
        Hpack : h (CreateChangePack ?doc) _ = (_, _) |- _ =>
          pose proof (built_fresh Himpl _ _ _ _ _ _ _ Hbuild) as Hfresh;
          destruct (update_applies Himpl _ _ _ _ _ _ Hupdate Hfresh)
            as (root & p & _ & Hupdated);
          rewrite docUpdate_clearPresence in Hupdated;
          pose proof (pack_reads Himpl _ _ _ _ _ Hpack Hupdated) as Hread;
          exists p; rewrite Hread; split; reflexivity
      end.
Qed.

End DetachDocumentProperties.

(** ** The properties on the sample backend *)

Section SampleRuns.

Import Sample.
Local Open Scope string_scope.
Local Open Scope list_scope.


Lemma invalid_actor_id_fails_fast_witness :
  ActorIDFromHex (ClientId (request "not-hex" "doc-1")) =
    Err "invalid actor id" /\
  run (backend "") (DetachDocument tt (request "not-hex" "doc-1")) 0 =
    ((None, Some "invalid actor id"), 0, []).
Proof.
  split; [ reflexivity | ].
  apply (invalid_actor_id_fails_fast _ (backend "") tt
           (request "not-hex" "doc-1") 0 "invalid actor id").
  reflexivity.
Defined.

Lemma unlock_on_every_exit_witness :
  In (Unlock "pushpull-proj-notes" tt)
     (calls (trace (backend "Update") (DetachDocument tt req) 0)) /\
  returned (backend "Unlock") (DetachDocument tt req) 0 =
    returned (backend "") (DetachDocument tt req) 0.
Proof.
  assert (Hagree : forall (c : Call) (w0 : nat),
             isUnlock c = false -> backend "Unlock" c w0 = backend "" c w0).
  { intros c w0 Hc. destruct c; first [ reflexivity | discriminate Hc ]. }
  split.
  - apply (proj1 (unlock_on_every_exit _ (backend "Update")
                    (backend "Update") tt req 0 (fun _ _ _ => eq_refl))
             "pushpull-proj-notes" tt).
    member.
  - apply (proj2 (proj2 (unlock_on_every_exit _ (backend "")
                           (backend "Unlock") tt req 0 Hagree))).
Defined.

Lemma lock_failure_stops_witness :
  run (backend "Lock") (DetachDocument tt req) 0 =
    ((None, Some "Lock failed"), 2,
     [ev (NewLocker tt (lockKeyOf req)) (Ok "pushpull-proj-notes");
      ev (Lock "pushpull-proj-notes" tt) (Some "Lock failed")]).
Proof.
  apply (lock_failure_stops _ (backend "Lock") tt req 0 1 2 actor
           "pushpull-proj-notes" "Lock failed");
    reflexivity.
Defined.

Lemma detach_clears_presence_then_pushes_witness :
  In (PushPull tt "proj" [("doc-1", (5, 3))] "doc-1" (5, 4) detached)
     (calls (trace (backend "Unlock") (DetachDocument tt req) 0)) /\
  Mode detached = SyncModePushPull /\
  Status detached = StatusDetached.
Proof.
  assert (Hin : In (PushPull tt "proj" [("doc-1", (5, 3))] "doc-1" (5, 4)
                      detached)
                   (calls (trace (backend "Unlock") (DetachDocument tt req) 0)))
    by member.
  split; [ exact Hin | ].
  destruct (proj1 (detach_clears_presence_then_pushes _ (backend "Unlock")
                     tt req 0) _ _ _ _ _ _ Hin) as (Hmode & Hstatus & _).
  split; assumption.
Defined.

Lemma failure_returns_first_error_witness :
  In (ev (PushPull tt "proj" [("doc-1", (5, 3))] "doc-1" (5, 4) detached)
        (Err "PushPull failed"))
     (trace (backend "PushPull") (DetachDocument tt req) 0) /\
  returned (backend "PushPull") (DetachDocument tt req) 0 =
    (None, Some "PushPull failed") /\
  firstFailure (trace (backend "PushPull") (DetachDocument tt req) 0) =
    Some "PushPull failed" /\
  forallb isRelease
    (calls (afterFailure (trace (backend "PushPull") (DetachDocument tt req) 0))) =
    true.
Proof.
  assert (Hin : In (ev (PushPull tt "proj" [("doc-1", (5, 3))] "doc-1" (5, 4)
                          detached) (Err "PushPull failed"))
                   (trace (backend "PushPull") (DetachDocument tt req) 0))
    by member.
  split; [ exact Hin | ].
  apply (proj1 (proj2 (failure_returns_first_error _ (backend "PushPull")
                         tt req 0)) _ "PushPull failed" Hin).
  reflexivity.
Defined.

Lemma success_returns_empty_response_witness :
  firstFailure (trace (backend "Unlock") (DetachDocument tt req) 0) = None /\
  returned (backend "Unlock") (DetachDocument tt req) 0 =
    (Some emptyResponse, None).
Proof.
  split; [ reflexivity | ].
  apply (success_returns_empty_response _ (backend "Unlock") tt req 0 actor);
    reflexivity.
Defined.

Lemma lock_key_of_project_and_document_witness :
  lockerKeys (calls (trace (backend "") (DetachDocument tt req) 0)) =
    ["pushpull-proj-notes"] /\
  forall key key' : SyncKey,
    In key (lockerKeys (calls (trace (backend "") (DetachDocument tt req) 0))) ->
    In key'
       (lockerKeys
          (calls
             (trace (backend "Lock")
                (DetachDocument tt (request "aaaaaaaaaaaaaaaaaaaaaaaa" "doc-2"))
                7))) ->
    key = key'.
Proof.
  split; [ reflexivity | ].
  apply (lock_key_of_project_and_document _ (backend "") _ (backend "Lock")
           tt tt req (request "aaaaaaaaaaaaaaaaaaaaaaaa" "doc-2") 0 7);
    reflexivity.
Defined.

Lemma unlock_once_iff_locked_witness :
  In (ev (NewLocker tt "pushpull-proj-notes") (Err "NewLocker failed"))
     (trace (backend "NewLocker") (DetachDocument tt req) 0) /\
  returned (backend "NewLocker") (DetachDocument tt req) 0 =
    (None, Some "NewLocker failed") /\
  unlockedBy (calls (trace (backend "Update") (DetachDocument tt req) 0)) =
    [("pushpull-proj-notes", tt)].
Proof.
  assert (Hin : In (ev (NewLocker tt "pushpull-proj-notes")
                      (Err "NewLocker failed"))
                   (trace (backend "NewLocker") (DetachDocument tt req) 0))
    by (left; reflexivity).
  split; [ exact Hin | split ].
  - apply (proj2 (proj2 (unlock_once_iff_locked _ (backend "NewLocker")
                           tt req 0)) _ _ _ Hin).
  - rewrite (proj1 (unlock_once_iff_locked _ (backend "Update") tt req 0)).
    reflexivity.
Defined.

End SampleRuns.


Section DocSampleRuns.

Import DocSample.
Local Open Scope string_scope.
Local Open Scope list_scope.

Lemma update_only_clears_presence_witness :
  ImplementsDocument backend view packOf /\
  In (PushPull tt "proj" [("doc-1", (5, 3))] "doc-1" ((5, 3), [None]) detached)
     (calls (trace backend (DetachDocument tt req) None)) /\
  exists p : Presence,
    changes (packOf ((5, 3), [None])) = [PresenceClear p] /\
    existsb isContentEdit (changes (packOf ((5, 3), [None]))) = false.
Proof.
  assert (Hin : In (PushPull tt "proj" [("doc-1", (5, 3))] "doc-1"
                      ((5, 3), [None]) detached)
                   (calls (trace backend (DetachDocument tt req) None)))
    by member.
  split; [ exact DocSample_implements | split; [ exact Hin | ] ].
  apply (proj2 (proj2 (proj2 (update_only_clears_presence _ backend
                                tt req None)))
           view packOf DocSample_implements _ _ _ _ _ _ Hin).
Defined.

End DocSampleRuns.

(** ** Further properties of [DetachDocument] *)

Section DetachDocumentFurther.

Context {P : Packages}.
Variable World : Type.
Variable h : forall c : Call, World -> Resp c * World.

(** A hypothesis [Hc] that equates an explicit call with the call looked
    for: the two differ, or their arguments are the same. *)
Ltac same_call Hc tac :=
  first [ discriminate Hc | injection Hc; intros; subst; tac ].

(** X1: a run that makes any call behind the lock (lookup, build, update,
    packaging, engine) consists of the construction of the locker, its
    successful [Lock], then only calls behind the lock, then the deferred
    [Unlock] (and its logging): none of those calls is made outside the
    locked section. *)
Theorem guarded_calls_hold_the_lock
    (ctx : Ctx) (req : ClusterServiceDetachDocumentRequest) (w : World) :
  existsb isGuarded (calls (trace h (DetachDocument ctx req) w)) = true ->
  exists locker body u,
    trace h (DetachDocument ctx req) w =
      [ev (NewLocker ctx (lockKeyOf req)) (Ok locker);
       ev (Lock locker ctx) None]
      ++ body ++ released locker ctx u /\
    forallb isGuarded (calls body) = true.
Proof.
  paths h req; intros Hguarded; try discriminate Hguarded;
    match goal with
    | H : h (Unlock _ _) _ = (?u, _) |- _ =>
        eexists;
        first
          [ solve [eexists [_]; exists u; split; reflexivity]
          | solve [eexists [_; _]; exists u; split; reflexivity]
          | solve [eexists [_; _; _]; exists u; split; reflexivity]
          | solve [eexists [_; _; _; _]; exists u; split; reflexivity]
          | solve [eexists [_; _; _; _; _]; exists u; split; reflexivity]
          | solve [eexists [_; _; _; _; _; _]; exists u; split; reflexivity] ]
    end.
Qed.

(** X2: the handler locks and unlocks no locker but the one [NewLocker]
    answered for the key of this request. *)
Theorem locks_only_the_constructed_locker
    (ctx : Ctx) (req : ClusterServiceDetachDocumentRequest) (w : World)
    (locker : Locker) (c : Ctx) :
  In (Lock locker c) (calls (trace h (DetachDocument ctx req) w)) \/
  In (Unlock locker c) (calls (trace h (DetachDocument ctx req) w)) ->
  In (ev (NewLocker ctx (lockKeyOf req)) (Ok locker))
     (trace h (DetachDocument ctx req) w).
Proof.
  paths h req; intros [Hin | Hin]; position Hin;
    match goal with
    | Hc : _ = Lock _ _ |- _ => same_call Hc member
    | Hc : _ = Unlock _ _ |- _ => same_call Hc member
    end.
Qed.

(** X3: every call that takes a context is given the context of the
    request, the deferred [Unlock] included. *)
Theorem context_is_passed_on
    (ctx : Ctx) (req : ClusterServiceDetachDocumentRequest) (w : World)
    (c : Call) (ctx' : Ctx) :
  In c (calls (trace h (DetachDocument ctx req) w)) ->
  ctxOf c = Some ctx' ->
  ctx' = ctx.
Proof.
  paths h req; intros Hin Hctx; position Hin; subst c; cbn in Hctx;
    first [ discriminate Hctx | injection Hctx as <-; reflexivity ].
Qed.

(** X4: the only error the handler gives to the logger is the one [Unlock]
    answered, on the locker it had locked; the errors it returns are not
    logged by it. *)
Theorem logs_only_unlock_errors
    (ctx : Ctx) (req : ClusterServiceDetachDocumentRequest) (w : World)
    (err : error) :
  In (LogError err) (calls (trace h (DetachDocument ctx req) w)) ->
  exists locker,
    In (ev (Lock locker ctx) None) (trace h (DetachDocument ctx req) w) /\
    In (ev (Unlock locker ctx) (Some err))
       (trace h (DetachDocument ctx req) w).
Proof.
  paths h req; intros Hin; position Hin;
    match goal with
    | Hc : _ = LogError _ |- _ =>
        same_call Hc ltac:(eexists; split; member)
    end.
Qed.

(** X5: the client record is looked up under the project ID of the request
    with the ID of the parsed actor, and the document record under the
    same project ID with the ID of the summary (not with its key, which
    goes into the lock key). *)
Theorem lookups_use_the_request_keys
    (ctx : Ctx) (req : ClusterServiceDetachDocumentRequest) (w : World) :
  (forall (c : Ctx) (key : ClientRefKey),
      In (FindActiveClientInfo c key)
         (calls (trace h (DetachDocument ctx req) w)) ->
      exists actorID,
        ActorIDFromHex (ClientId req) = Ok actorID /\
        key = clientRefKeyOf req actorID) /\
  (forall (c : Ctx) (key : DocRefKey),
      In (FindDocInfoByRefKey c key)
         (calls (trace h (DetachDocument ctx req) w)) ->
      key = docRefKeyOf req).
Proof.
  split.
  - paths h req; intros c key Hin; position Hin;
      match goal with
      | Hc : _ = FindActiveClientInfo _ _ |- _ =>
          same_call Hc ltac:(eexists; split; reflexivity)
      end.
  - paths h req; intros c key Hin; position Hin;
      match goal with
      | Hc : _ = FindDocInfoByRefKey _ _ |- _ =>
          same_call Hc reflexivity
      end.
Qed.

(** X6: whenever the snapshot is built, it is built for the parsed actor,
    from the document record the lookup answered, at the checkpoint that
    the client record the lookup answered holds for the summary's ID. *)
Theorem snapshot_is_built_from_the_lookups
    (ctx : Ctx) (req : ClusterServiceDetachDocumentRequest) (w : World)
    (c : Ctx) (docInfo : DocInfo) (cp : Checkpoint) (actorID : ActorID) :
  In (BuildDocForCheckpoint c docInfo cp actorID)
     (calls (trace h (DetachDocument ctx req) w)) ->
  ActorIDFromHex (ClientId req) = Ok actorID /\
  In (ev (FindDocInfoByRefKey ctx (docRefKeyOf req)) (Ok docInfo))
     (trace h (DetachDocument ctx req) w) /\
  exists clientInfo,
    In (ev (FindActiveClientInfo ctx (clientRefKeyOf req actorID))
          (Ok clientInfo))
       (trace h (DetachDocument ctx req) w) /\
    cp = ClientInfo_Checkpoint clientInfo (Summary_ID (summaryOf req)).
Proof.
  paths h req; intros Hin; position Hin;
    match goal with
    | Hc : _ = BuildDocForCheckpoint _ _ _ _ |- _ =>
        same_call Hc
          ltac:(split;
                [ reflexivity
                | split; [ member | eexists; split; [ member | reflexivity ] ] ])
    end.
Qed.

(** X7: whenever the engine is called, it is given the converted project
    of the request and the very client and document records the two
    lookups answered in this run. *)
Theorem engine_gets_the_looked_up_records
    (ctx : Ctx) (req : ClusterServiceDetachDocumentRequest) (w : World)
    (c : Ctx) (project : Project) (clientInfo : ClientInfo)
    (docInfo : DocInfo) (pack : ChangePack) (opts : PushPullOptions) :
  In (PushPull c project clientInfo docInfo pack opts)
     (calls (trace h (DetachDocument ctx req) w)) ->
  project = projectOf req /\
  In (ev (FindDocInfoByRefKey ctx (docRefKeyOf req)) (Ok docInfo))
     (trace h (DetachDocument ctx req) w) /\
  exists actorID,
    ActorIDFromHex (ClientId req) = Ok actorID /\
    In (ev (FindActiveClientInfo ctx (clientRefKeyOf req actorID))
          (Ok clientInfo))
       (trace h (DetachDocument ctx req) w).
Proof.
  paths h req; intros Hin; position Hin;
    match goal with
    | Hc : _ = PushPull _ _ _ _ _ _ |- _ =>
        same_call Hc
          ltac:(split;
                [ reflexivity
                | split; [ member | eexists; split; [ reflexivity | member ] ] ])
    end.
Qed.

(** X8: [Update] is only called on the document the snapshot builder
    answered, and [CreateChangePack] only on a document whose update with
    the presence-clearing callback answered nil: a document whose update
    failed is never packed. *)
Theorem only_the_updated_snapshot_is_packed
    (ctx : Ctx) (req : ClusterServiceDetachDocumentRequest) (w : World) :
  (forall (doc : Document) (f : UpdateFunc),
      In (Update doc f) (calls (trace h (DetachDocument ctx req) w)) ->
      exists docInfo cp actorID,
        In (ev (BuildDocForCheckpoint ctx docInfo cp actorID) (Ok doc))
           (trace h (DetachDocument ctx req) w)) /\
  (forall doc : Document,
      In (CreateChangePack doc) (calls (trace h (DetachDocument ctx req) w)) ->
      In (ev (Update doc clearPresence) None)
         (trace h (DetachDocument ctx req) w)).
Proof.
  split.
  - paths h req; intros doc f Hin; position Hin;
      match goal with
      | Hc : _ = Update _ _ |- _ =>
          same_call Hc ltac:(do 3 eexists; member)
      end.
  - paths h req; intros doc Hin; position Hin;
      match goal with
      | Hc : _ = CreateChangePack _ |- _ => same_call Hc member
      end.
Qed.

(** X9: no collaborator function is called twice in a run (a failed step
    is not retried, the engine is called once at most), and a run makes
    ten calls at most. *)
Theorem no_call_is_repeated
    (ctx : Ctx) (req : ClusterServiceDetachDocumentRequest) (w : World) :
  NoDup (map kindOf (calls (trace h (DetachDocument ctx req) w))) /\
  List.length (trace h (DetachDocument ctx req) w) <= 10.
Proof.
  paths h req;
    (split;
     [ repeat constructor; cbn; intuition discriminate
     | cbn; lia ]).
Qed.

(** X10: of the response and the error the handler returns, exactly one is
    nil; the error is nil exactly when the client ID parsed and no step of
    the run answered an error. *)
Theorem response_xor_error
    (ctx : Ctx) (req : ClusterServiceDetachDocumentRequest) (w : World) :
  (returned h (DetachDocument ctx req) w = (Some emptyResponse, None) \/
   exists err, returned h (DetachDocument ctx req) w = (None, Some err)) /\
  (snd (returned h (DetachDocument ctx req) w) = None <->
   (exists actorID, ActorIDFromHex (ClientId req) = Ok actorID) /\
   firstFailure (trace h (DetachDocument ctx req) w) = None).
Proof.
  rewrite returned_of_run.
  destruct (ActorIDFromHex (ClientId req)) as [actorID | err].
  - destruct (firstFailure (trace h (DetachDocument ctx req) w)) as [err | ];
      cbn; split.
    + right. exists err. reflexivity.
    + split; [ discriminate | intros [_ Hnone]; discriminate Hnone ].
    + left. reflexivity.
    + split; [ intros _; split; [ exists actorID | ]; reflexivity
             | reflexivity ].
  - cbn. split.
    + right. exists err. reflexivity.
    + split; [ discriminate | intros [[actorID Hok] _]; discriminate Hok ].
Qed.

End DetachDocumentFurther.

(** ** The further properties on the sample backend *)

Section SampleRunsFurther.

Import Sample.
Local Open Scope string_scope.
Local Open Scope list_scope.

Lemma guarded_calls_hold_the_lock_witness :
  existsb isGuarded
    (calls (trace (backend "FindDocInfoByRefKey") (DetachDocument tt req) 0)) =
    true /\
  exists locker body u,
    trace (backend "FindDocInfoByRefKey") (DetachDocument tt req) 0 =
      [ev (NewLocker tt (lockKeyOf req)) (Ok locker);
       ev (Lock locker tt) None]
      ++ body ++ released locker tt u /\
    forallb isGuarded (calls body) = true.
Proof.
  split; [ reflexivity | ].
  apply (guarded_calls_hold_the_lock _ (backend "FindDocInfoByRefKey") tt req 0).
  reflexivity.
Defined.

Lemma locks_only_the_constructed_locker_witness :
  In (Unlock "pushpull-proj-notes" tt)
     (calls (trace (backend "PushPull") (DetachDocument tt req) 0)) /\
  In (ev (NewLocker tt (lockKeyOf req)) (Ok "pushpull-proj-notes"))
     (trace (backend "PushPull") (DetachDocument tt req) 0).
Proof.
  assert (Hin : In (Unlock "pushpull-proj-notes" tt)
                   (calls (trace (backend "PushPull") (DetachDocument tt req) 0)))
    by member.
  split; [ exact Hin | ].
  apply (locks_only_the_constructed_locker _ (backend "PushPull") tt req 0
           "pushpull-proj-notes" tt).
  right. exact Hin.
Defined.

Lemma context_is_passed_on_witness :
  In (Unlock "pushpull-proj-notes" tt)
     (calls (trace (backend "") (DetachDocument tt req) 0)) /\
  ctxOf (Unlock "pushpull-proj-notes" tt) = Some tt /\
  tt = tt.
Proof.
  assert (Hin : In (Unlock "pushpull-proj-notes" tt)
                   (calls (trace (backend "") (DetachDocument tt req) 0)))
    by member.
  split; [ exact Hin | split; [ reflexivity | ] ].
  apply (context_is_passed_on _ (backend "") tt req 0
           (Unlock (P := packages) "pushpull-proj-notes" tt) tt Hin).
  reflexivity.
Defined.

Lemma logs_only_unlock_errors_witness :
  In (LogError "Unlock failed")
     (calls (trace (backend "Unlock") (DetachDocument tt req) 0)) /\
  exists locker,
    In (ev (Lock locker tt) None)
       (trace (backend "Unlock") (DetachDocument tt req) 0) /\
    In (ev (Unlock locker tt) (Some "Unlock failed"))
       (trace (backend "Unlock") (DetachDocument tt req) 0).
Proof.
  assert (Hin : In (LogError "Unlock failed")
                   (calls (trace (backend "Unlock") (DetachDocument tt req) 0)))
    by member.
  split; [ exact Hin | ].
  apply (logs_only_unlock_errors _ (backend "Unlock") tt req 0
           "Unlock failed" Hin).
Defined.

Lemma lookups_use_the_request_keys_witness :
  In (FindDocInfoByRefKey tt
        {| DocRefKey_ProjectID := "proj"; DocID := "doc-1" |})
     (calls (trace (backend "Update") (DetachDocument tt req) 0)) /\
  {| DocRefKey_ProjectID := "proj"; DocID := "doc-1" |} = docRefKeyOf req.
Proof.
  assert (Hin : In (FindDocInfoByRefKey tt
                      {| DocRefKey_ProjectID := "proj"; DocID := "doc-1" |})
                   (calls (trace (backend "Update") (DetachDocument tt req) 0)))
    by member.
  split; [ exact Hin | ].
  apply (proj2 (lookups_use_the_request_keys _ (backend "Update") tt req 0)
           tt _ Hin).
Defined.

Lemma snapshot_is_built_from_the_lookups_witness :
  In (BuildDocForCheckpoint tt "doc-1" (5, 3) actor)
     (calls (trace (backend "Update") (DetachDocument tt req) 0)) /\
  ActorIDFromHex (ClientId req) = Ok actor /\
  exists clientInfo,
    In (ev (FindActiveClientInfo tt (clientRefKeyOf req actor)) (Ok clientInfo))
       (trace (backend "Update") (DetachDocument tt req) 0) /\
    (5, 3) = ClientInfo_Checkpoint clientInfo (Summary_ID (summaryOf req)).
Proof.
  assert (Hin : In (BuildDocForCheckpoint tt "doc-1" (5, 3) actor)
                   (calls (trace (backend "Update") (DetachDocument tt req) 0)))
    by member.
  split; [ exact Hin | ].
  destruct (snapshot_is_built_from_the_lookups _ (backend "Update") tt req 0
              tt "doc-1" (5, 3) actor Hin) as (Hparse & _ & Hclient).
  split; [ exact Hparse | exact Hclient ].
Defined.

Lemma engine_gets_the_looked_up_records_witness :
  In (PushPull tt "proj" [("doc-1", (5, 3))] "doc-1" (5, 4) detached)
     (calls (trace (backend "PushPull") (DetachDocument tt req) 0)) /\
  "proj" = projectOf req /\
  In (ev (FindDocInfoByRefKey tt (docRefKeyOf req)) (Ok "doc-1"))
     (trace (backend "PushPull") (DetachDocument tt req) 0).
Proof.
  assert (Hin : In (PushPull tt "proj" [("doc-1", (5, 3))] "doc-1" (5, 4)
                      detached)
                   (calls (trace (backend "PushPull") (DetachDocument tt req) 0)))
    by member.
  split; [ exact Hin | ].
  destruct (engine_gets_the_looked_up_records _ (backend "PushPull") tt req 0
              tt "proj" [("doc-1", (5, 3))] "doc-1" (5, 4) detached Hin)
    as (Hproject & Hdoc & _).
  split; [ exact Hproject | exact Hdoc ].
Defined.

Lemma only_the_updated_snapshot_is_packed_witness :
  In (CreateChangePack "doc-1")
     (calls (trace (backend "") (DetachDocument tt req) 0)) /\
  In (ev (Update "doc-1" clearPresence) None)
     (trace (backend "") (DetachDocument tt req) 0).
Proof.
  assert (Hin : In (CreateChangePack "doc-1")
                   (calls (trace (backend "") (DetachDocument tt req) 0)))
    by member.
  split; [ exact Hin | ].
  apply (proj2 (only_the_updated_snapshot_is_packed _ (backend "") tt req 0)
           "doc-1" Hin).
Defined.

End SampleRunsFurther.
